(** * mqtt_app: the MQTT telemetry bridge of sdk-samples

    A shallow embedding of [mqtt_app/mqtt_app.py]: the connect callback
    [on_connect] and the periodic publisher [publish_thread], over an
    explicit model of the platform they call into (the router data
    source [cs], the paho client and its one-shot publish helpers, the
    logger and [time.sleep]). *)

From Stdlib Require Import ZArith List String Ascii Bool Lia.
From Stdlib Require Import DecimalString.
Import ListNotations.

Set Warnings "-register-all".

Local Open Scope string_scope.
Local Open Scope Z_scope.

(** ** Python values

    The values that travel through the program are the ones the data
    source hands out: decoded JSON.  A [dict] keeps its insertion order,
    which [json.dumps] follows, so it is an association list.  A float is
    kept as its [repr], the shortest decimal string that reads back as
    the same double. *)

Inductive pyval : Type :=
| PNone
| PBool (b : bool)
| PInt (z : Z)
| PFloat (repr : string)
| PStr (s : string)
| PList (items : list pyval)
| PDict (members : list (string * pyval)).

(** The name [type(v).__name__] that Python prints in an AttributeError. *)
Definition py_type_name (v : pyval) : string :=
  match v with
  | PNone => "NoneType"
  | PBool _ => "bool"
  | PInt _ => "int"
  | PFloat _ => "float"
  | PStr _ => "str"
  | PList _ => "list"
  | PDict _ => "dict"
  end.

(** ** Exceptions

    An [exn] stands for an instance of a subclass of Python's
    [Exception]; [exn_str] is what [str(ex)] (and thus the format
    placeholder) prints. *)

Record exn : Type := MkExn { exn_class : string; exn_str : string }.

Definition result (A : Type) : Type := (exn + A)%type.

Definition AttributeError (msg : string) : exn := MkExn "AttributeError" msg.

(** ** dict.get *)

Fixpoint assoc (k : string) (d : list (string * pyval)) : option pyval :=
  match d with
  | [] => None
  | (k', v) :: rest => if String.eqb k k' then Some v else assoc k rest
  end.

Definition dict_get (d : list (string * pyval)) (k : string) (default : pyval) : pyval :=
  match assoc k d with
  | Some v => v
  | None => default
  end.

(** [v.get(k, default)]: only a dict has the attribute; on anything else
    (None included) the attribute lookup raises AttributeError. *)
Definition py_get (v : pyval) (k : string) (default : pyval) : result pyval :=
  match v with
  | PDict d => inr (dict_get d k default)
  | _ => inl (AttributeError
                ("'" ++ py_type_name v ++ "' object has no attribute 'get'"))
  end.

(** ** json.dumps

    The encoder with its defaults: separators [", "] and [": "], ASCII
    only output, NaN and the infinities allowed. *)

Definition dquote : string := String (ascii_of_nat 34) EmptyString.
Definition backslash : string := String (ascii_of_nat 92) EmptyString.

Definition hex_digit (n : nat) : ascii :=
  match n with
  | 0%nat => "0" | 1%nat => "1" | 2%nat => "2" | 3%nat => "3"
  | 4%nat => "4" | 5%nat => "5" | 6%nat => "6" | 7%nat => "7"
  | 8%nat => "8" | 9%nat => "9" | 10%nat => "a" | 11%nat => "b"
  | 12%nat => "c" | 13%nat => "d" | 14%nat => "e" | _ => "f"
  end%char.

(** One character of [py_encode_basestring_ascii]: the short escapes of
    ESCAPE_DCT, a four digit unicode escape for everything else outside
    the printable range space to tilde. *)
Definition escape_char (c : ascii) : string :=
  let n := nat_of_ascii c in
  if Nat.eqb n 92 then backslash ++ backslash
  else if Nat.eqb n 34 then backslash ++ dquote
  else if Nat.eqb n 8 then backslash ++ "b"
  else if Nat.eqb n 12 then backslash ++ "f"
  else if Nat.eqb n 10 then backslash ++ "n"
  else if Nat.eqb n 13 then backslash ++ "r"
  else if Nat.eqb n 9 then backslash ++ "t"
  else if (Nat.leb 32 n && Nat.leb n 126)%bool then String c EmptyString
  else backslash ++ "u00"
       ++ String (hex_digit (n / 16)) (String (hex_digit (n mod 16)) EmptyString).

Fixpoint escape_string (s : string) : string :=
  match s with
  | EmptyString => EmptyString
  | String c rest => escape_char c ++ escape_string rest
  end.

Definition encode_basestring_ascii (s : string) : string :=
  dquote ++ escape_string s ++ dquote.

(** [int.__repr__] *)
Definition int_repr (z : Z) : string := NilZero.string_of_int (Z.to_int z).

(** [floatstr] of the encoder: the repr, except for the three values
    that JSON has no literal for. *)
Definition floatstr (repr : string) : string :=
  if String.eqb repr "nan" then "NaN"
  else if String.eqb repr "inf" then "Infinity"
  else if String.eqb repr "-inf" then "-Infinity"
  else repr.

Fixpoint json_dumps (v : pyval) : string :=
  match v with
  | PNone => "null"
  | PBool true => "true"
  | PBool false => "false"
  | PInt z => int_repr z
  | PFloat r => floatstr r
  | PStr s => encode_basestring_ascii s
  | PList items =>
      "[" ++
      (fix items_str (first : bool) (l : list pyval) : string :=
         match l with
         | [] => EmptyString
         | x :: rest =>
             (if first then EmptyString else ", ")
             ++ json_dumps x ++ items_str false rest
         end) true items
      ++ "]"
  | PDict members =>
      "{" ++
      (fix members_str (first : bool) (l : list (string * pyval)) : string :=
         match l with
         | [] => EmptyString
         | (k, x) :: rest =>
             (if first then EmptyString else ", ")
             ++ encode_basestring_ascii k ++ ": " ++ json_dumps x
             ++ members_str false rest
         end) true members
      ++ "}"
  end.

(** ** Configuration

    [settings.py] is imported by the program but holds only constants;
    every definition below takes them as a [Settings] value. *)

Record Settings : Type := {
  MQTT_SERVER : string;
  MQTT_PORT : Z;
  MQTT_CLIENT_ID : string;
  MQTT_QOS : Z;
  GPS_TOPIC : string;
  MODEM_TEMP_TOPIC : string;
  WAN_CONNECTION_STATE_TOPIC : string
}.

(** ** Observable events

    Every call that leaves the program is recorded, in program order,
    together with what the call returned or raised. *)

(** An element of the [msgs] list of [publish.multiple]:
    (topic, payload, qos, retain). *)
Definition message : Type := (string * pyval * Z * bool)%type.

Definition msg_retain (m : message) : bool := snd m.

Inductive event : Type :=
| LogDebug (text : string)
| LogError (text : string)
| CsGet (key : string) (returned : result pyval)
| PublishSingle (topic payload : string) (qos : Z) (hostname : string) (port : Z)
    (returned : result unit)
| PublishMultiple (msgs : list message) (hostname : string) (port : Z)
    (returned : result unit)
| Subscribe (topics : list (string * Z)) (returned : result unit)
| Sleep (seconds : Z).

Definition is_subscribe (e : event) : bool :=
  match e with Subscribe _ _ => true | _ => false end.

Definition is_single (e : event) : bool :=
  match e with PublishSingle _ _ _ _ _ _ => true | _ => false end.

Definition is_batch (e : event) : bool :=
  match e with PublishMultiple _ _ _ _ => true | _ => false end.

Definition is_sleep (e : event) : bool :=
  match e with Sleep _ => true | _ => false end.

(** ** The platform

    What the program calls but does not define.  Each call may change the
    state [W] of the outside world and may raise. *)

Record Platform (W : Type) : Type := {
  cs_get : string -> W -> result pyval * W;
  publish_single : string -> string -> Z -> string -> Z -> W -> result unit * W;
  publish_multiple : list message -> string -> Z -> W -> result unit * W;
  client_subscribe : list (string * Z) -> W -> result unit * W;
  connack_string : Z -> string
}.

Arguments cs_get {W}.
Arguments publish_single {W}.
Arguments publish_multiple {W}.
Arguments client_subscribe {W}.
Arguments connack_string {W}.

(** ** A monad for world state, exceptions and the event log *)

Record outcome (W A : Type) : Type := Out {
  out_res : result A;
  out_world : W;
  out_events : list event
}.

Arguments Out {W A}.
Arguments out_res {W A}.
Arguments out_world {W A}.
Arguments out_events {W A}.

Definition M (W A : Type) : Type := W -> outcome W A.

Definition ret {W A} (a : A) : M W A := fun w => Out (inr a) w [].

Definition bind {W A B} (m : M W A) (f : A -> M W B) : M W B :=
  fun w =>
    match m w with
    | Out (inl e) w1 evs1 => Out (inl e) w1 evs1
    | Out (inr a) w1 evs1 =>
        match f a w1 with
        | Out r w2 evs2 => Out r w2 (evs1 ++ evs2)%list
        end
    end.

Declare Scope py_scope.
Delimit Scope py_scope with py.
Notation "x <- m ;; k" := (bind m (fun x => k))
  (at level 100, m at next level, right associativity) : py_scope.
Notation "m ;; k" := (bind m (fun _ => k))
  (at level 100, right associativity) : py_scope.

(** [try: body except Exception as ex: handler ex].  Every [exn] is an
    instance of [Exception], so the clause catches whatever the body
    raises. *)
Definition try_except {W A} (body : M W A) (handler : exn -> M W A) : M W A :=
  fun w =>
    match body w with
    | Out (inl e) w1 evs1 =>
        match handler e w1 with
        | Out r w2 evs2 => Out r w2 (evs1 ++ evs2)%list
        end
    | Out (inr a) w1 evs1 => Out (inr a) w1 evs1
    end.

(** [while True: body], observed for [fuel] iterations.  An exception
    that escapes the body ends the loop. *)
Fixpoint while_true {W} (fuel : nat) (body : M W unit) : M W unit :=
  match fuel with
  | O => ret tt
  | S n => bind body (fun _ => while_true n body)
  end.

Definition lift {W A} (r : result A) : M W A := fun w => Out r w [].

Definition emit {W} (e : event) : M W unit := fun w => Out (inr tt) w [e].

Definition call {W A} (e : result A -> event) (f : W -> result A * W) : M W A :=
  fun w => let (r, w') := f w in Out r w' [e r].

(** ** The program *)

Section Program.

Context {W : Type}.
Variable P : Platform W.
Variable settings : Settings.

Local Open Scope py_scope.

Definition log_debug (text : string) : M W unit := emit (LogDebug text).
Definition log_error (text : string) : M W unit := emit (LogError text).
Definition time_sleep (seconds : Z) : M W unit := emit (Sleep seconds).

Definition CSClient_get (key : string) : M W pyval :=
  call (CsGet key) (cs_get P key).

Definition publish_single_call (topic payload : string) (qos : Z)
    (hostname : string) (port : Z) : M W unit :=
  call (PublishSingle topic payload qos hostname port)
       (publish_single P topic payload qos hostname port).

Definition publish_multiple_call (msgs : list message) (hostname : string)
    (port : Z) : M W unit :=
  call (PublishMultiple msgs hostname port)
       (publish_multiple P msgs hostname port).

Definition subscribe_call (topics : list (string * Z)) : M W unit :=
  call (Subscribe topics) (client_subscribe P topics).

(** The topic list built by [on_connect]. *)
Definition subscribe_topics : list (string * Z) :=
  [(GPS_TOPIC settings, MQTT_QOS settings);
   (MODEM_TEMP_TOPIC settings, MQTT_QOS settings);
   (WAN_CONNECTION_STATE_TOPIC settings, MQTT_QOS settings)].

(** [on_connect(client, userdata, flags, rc)] *)
Definition on_connect (rc : Z) : M W unit :=
  log_debug ("MQTT Client connection results: " ++ connack_string P rc) ;;
  let topics := subscribe_topics in
  try_except
    (subscribe_call topics)
    (fun ex => log_error ("Client Subscribe exception. ex=" ++ exn_str ex)).

(** The dict that lines 95-96 build from the record under ['data']. *)
Definition gps_pos (gps_lastpos : pyval) : result pyval :=
  match py_get gps_lastpos "longitude" PNone with
  | inl e => inl e
  | inr lon =>
      match py_get gps_lastpos "latitude" PNone with
      | inl e => inl e
      | inr lat => inr (PDict [("logitude", lon); ("latitude", lat)])
      end
  end.

(** The list built on lines 106-107. *)
Definition batch_msgs (modem_temp wan_connection_state : pyval) : list message :=
  [(MODEM_TEMP_TOPIC settings, modem_temp, MQTT_QOS settings, false);
   (WAN_CONNECTION_STATE_TOPIC settings, wan_connection_state,
    MQTT_QOS settings, false)].

(** The body of the [try] of [publish_thread], lines 94-111. *)
Definition publish_try : M W unit :=
  r_gps <- CSClient_get (GPS_TOPIC settings) ;;
  gps_lastpos <- lift (py_get r_gps "data" PNone) ;;
  pos <- lift (gps_pos gps_lastpos) ;;
  publish_single_call (GPS_TOPIC settings) (json_dumps pos)
    (MQTT_QOS settings) (MQTT_SERVER settings) (MQTT_PORT settings) ;;
  r_temp <- CSClient_get (MODEM_TEMP_TOPIC settings) ;;
  modem_temp <- lift (py_get r_temp "data" (PStr "")) ;;
  r_wan <- CSClient_get (WAN_CONNECTION_STATE_TOPIC settings) ;;
  wan_connection_state <- lift (py_get r_wan "data" PNone) ;;
  let msgs := batch_msgs modem_temp wan_connection_state in
  publish_multiple_call msgs (MQTT_SERVER settings) (MQTT_PORT settings) ;;
  time_sleep 10.

(** One turn of the [while True] of [publish_thread], lines 93-113. *)
Definition publish_iteration : M W unit :=
  try_except
    publish_try
    (fun ex => log_error ("Exception in send_gps(). ex: " ++ exn_str ex)).

(** [publish_thread()], its loop observed for [fuel] iterations. *)
Definition publish_thread (fuel : nat) : M W unit :=
  log_debug "Start publish_thread()" ;;
  while_true fuel publish_iteration.

End Program.

(** ** A scripted platform

    A world without state of its own: the data source answers from a
    fixed table and each outgoing call has a fixed result. *)

Definition connack_table (rc : Z) : string :=
  match rc with
  | 0 => "Connection Accepted."
  | 1 => "Connection Refused: unacceptable protocol version."
  | 2 => "Connection Refused: identifier rejected."
  | 3 => "Connection Refused: broker unavailable."
  | 4 => "Connection Refused: bad user name or password."
  | 5 => "Connection Refused: not authorised."
  | _ => "Connection Refused: unknown reason."
  end.

Definition scripted (table : string -> result pyval)
    (single multiple subscribe : result unit) : Platform unit := {|
  cs_get := fun key w => (table key, w);
  publish_single := fun _ _ _ _ _ w => (single, w);
  publish_multiple := fun _ _ _ w => (multiple, w);
  client_subscribe := fun _ w => (subscribe, w);
  connack_string := connack_table
|}.

(** Sample configuration: the broker named in the module docstring and
    one topic per quantity. *)
Definition sample_settings : Settings := {|
  MQTT_SERVER := "test.mosquitto.org";
  MQTT_PORT := 1883;
  MQTT_CLIENT_ID := "mqtt_app";
  MQTT_QOS := 0;
  GPS_TOPIC := "/status/gps/lastpos";
  MODEM_TEMP_TOPIC := "/status/system/modem_temperature";
  WAN_CONNECTION_STATE_TOPIC := "/status/wan/connection_state"
|}.

Definition ok : result unit := inr tt.

Definition healthy_table (key : string) : result pyval :=
  if String.eqb key "/status/gps/lastpos" then
    inr (PDict [("data", PDict [("longitude", PFloat "-97.1");
                                ("latitude", PFloat "32.7")])])
  else if String.eqb key "/status/system/modem_temperature" then
    inr (PDict [("data", PInt 41)])
  else inr (PDict [("data", PStr "connected")]).

Definition absent_table (key : string) : result pyval := inr PNone.

Definition gps_only_table (key : string) : result pyval :=
  if String.eqb key "/status/gps/lastpos" then
    inr (PDict [("data", PDict [("longitude", PFloat "-97.1");
                                ("latitude", PFloat "32.7")])])
  else inr (PDict [("success", PBool true)]).

Definition no_fix_table (key : string) : result pyval :=
  if String.eqb key "/status/gps/lastpos" then inr (PDict [("data", PDict [])])
  else inr (PDict [("data", PNone)]).

Definition invalid_topic : exn := MkExn "ValueError" "Invalid topic.".

Definition healthy : Platform unit := scripted healthy_table ok ok ok.
Definition gps_absent : Platform unit := scripted absent_table ok ok ok.
Definition subscribe_raises : Platform unit :=
  scripted healthy_table ok ok (inl invalid_topic).
Definition no_fix : Platform unit := scripted no_fix_table ok ok ok.

(** A world with a clock: the data source has no GPS record on the first
    read and answers from [healthy_table] from then on. *)
Definition flaky : Platform nat := {|
  cs_get := fun key n =>
    (match n with O => inr PNone | S _ => healthy_table key end, S n);
  publish_single := fun _ _ _ _ _ n => (ok, n);
  publish_multiple := fun _ _ _ n => (ok, n);
  client_subscribe := fun _ n => (ok, n);
  connack_string := connack_table
|}.
Definition gps_only : Platform unit := scripted gps_only_table ok ok ok.

(** What [healthy] publishes in a batch. *)
Definition healthy_msgs : list message :=
  [("/status/system/modem_temperature", PInt 41, 0, false);
   ("/status/wan/connection_state", PStr "connected", 0, false)].

(** The events of [n] successive turns of the publisher loop, each turn
    starting in the world the previous one left. *)
Fixpoint turns_events {W} (P : Platform W) (s : Settings) (n : nat) (w : W)
    : list event :=
  match n with
  | O => []
  | S k =>
      let o := publish_iteration P s w in
      (out_events o ++ turns_events P s k (out_world o))%list
  end.

(** The text between the braces of a JSON object member whose value may
    be missing from the source dict. *)
Definition json_field (o : option pyval) : string :=
  match o with
  | Some v => json_dumps v
  | None => "null"
  end.

(** ** Further observations and sample worlds *)

Definition is_read (e : event) : bool :=
  match e with CsGet _ _ => true | _ => false end.

(** How many events of a trace satisfy [f]. *)
Definition count (f : event -> bool) (evs : list event) : nat :=
  List.length (filter f evs).

(** [on_connect] called once per connect result, in the order the
    results arrive: the first connection and every reconnect after it. *)
Fixpoint on_connect_each {W} (P : Platform W) (s : Settings) (rcs : list Z)
    : M W unit :=
  match rcs with
  | [] => ret tt
  | rc :: rest => bind (on_connect P s rc) (fun _ => on_connect_each P s rest)
  end.

Definition broker_down : exn := MkExn "ConnectionRefusedError" "[Errno 111] Connection refused".

Definition batch_fails : Platform unit :=
  scripted healthy_table ok (inl broker_down) ok.

Definition no_data_table (key : string) : result pyval :=
  inr (PDict [("success", PBool false)]).

Definition no_data : Platform unit := scripted no_data_table ok ok ok.

Definition wan_no_data_table (key : string) : result pyval :=
  if String.eqb key "/status/wan/connection_state"
  then inr (PDict [("success", PBool true)])
  else healthy_table key.

Definition temp_no_data_table (key : string) : result pyval :=
  if String.eqb key "/status/system/modem_temperature"
  then inr (PDict [("success", PBool true)])
  else healthy_table key.

Definition wan_no_data : Platform unit := scripted wan_no_data_table ok ok ok.
Definition temp_no_data : Platform unit := scripted temp_no_data_table ok ok ok.

(** Subscribing fails on every second call. *)
Definition subscribe_flaky : Platform nat := {|
  cs_get := fun key n => (healthy_table key, n);
  publish_single := fun _ _ _ _ _ n => (ok, n);
  publish_multiple := fun _ _ _ n => (ok, n);
  client_subscribe := fun _ n =>
    (if Nat.even n then inl invalid_topic else ok, S n);
  connack_string := connack_table
|}.

(** ** str.strip

    [s.strip()] without argument removes the leading and trailing
    characters for which [str.isspace] holds.  A [string] holds code
    points below 256, and there these are TAB to CR, FS to US, the
    space, NEL and the no-break space; white space of higher code points
    is outside what a [string] can hold. *)

Definition is_space (c : ascii) : bool :=
  let n := nat_of_ascii c in
  ((Nat.leb 9 n && Nat.leb n 13) || (Nat.leb 28 n && Nat.leb n 32)
   || Nat.eqb n 133 || Nat.eqb n 160)%bool.

Fixpoint all_space (s : string) : bool :=
  match s with
  | EmptyString => true
  | String c rest => (is_space c && all_space rest)%bool
  end.

Fixpoint lstrip (s : string) : string :=
  match s with
  | EmptyString => EmptyString
  | String c rest => if is_space c then lstrip rest else s
  end.

Fixpoint rstrip (s : string) : string :=
  match s with
  | EmptyString => EmptyString
  | String c rest =>
      match rstrip rest with
      | EmptyString => if is_space c then EmptyString else String c EmptyString
      | kept => String c kept
      end
  end.

Definition py_strip (s : string) : string := rstrip (lstrip s).

(** ** Start-up and shutdown

    [start_mqtt], [start_router_app], [stop_router_app], [action] and the
    main block.  They call three more things of the platform: the paho
    client (constructor, [connect], [loop_forever]) and [Thread.start].
    The thread runs [start_mqtt] on its own; the trace of a function is
    the trace of the thread that runs it, and the interleaving of the two
    threads is not modelled. *)

Module Lifecycle.

Inductive slot : Type := OnConnect | OnMessage | OnPublish | OnSubscribe.

Inductive ev : Type :=
| Core (e : event)
| NewClient (client_id : string) (returned : result unit)
| SetCallback (callback : slot)
| Connect (host : string) (port : Z) (returned : result unit)
| LoopForever (returned : result unit)
| ThreadStart (target : string) (returned : result unit).

Definition is_error (e : ev) : bool :=
  match e with Core (LogError _) => true | _ => false end.

Record Host (W : Type) : Type := {
  core : Platform W;
  client_new : string -> W -> result unit * W;
  client_connect : string -> Z -> W -> result unit * W;
  client_loop_forever : W -> result unit * W;
  thread_start : W -> result unit * W
}.

Arguments core {W}.
Arguments client_new {W}.
Arguments client_connect {W}.
Arguments client_loop_forever {W}.
Arguments thread_start {W}.

(** How far a function got: it returned, it raised, it is still inside
    a loop that has no exit when the observation ends, or the process
    left through [exit()]. *)
Inductive status (A : Type) : Type :=
| Returned (a : A)
| Raised (e : exn)
| Running
| Exited.

Arguments Returned {A}.
Arguments Raised {A}.
Arguments Running {A}.
Arguments Exited {A}.

Record run (W A : Type) : Type := Run {
  run_status : status A;
  run_world : W;
  run_events : list ev
}.

Arguments Run {W A}.
Arguments run_status {W A}.
Arguments run_world {W A}.
Arguments run_events {W A}.

Definition L (W A : Type) : Type := W -> run W A.

Definition ret {W A} (a : A) : L W A := fun w => Run (Returned a) w [].

(** A bare [raise] inside a handler: the exception being handled. *)
Definition reraise {W A} (e : exn) : L W A := fun w => Run (Raised e) w [].

(** [exit()] raises SystemExit, which is no [Exception]. *)
Definition exit {W A} : L W A := fun w => Run Exited w [].

Definition bind {W A B} (m : L W A) (f : A -> L W B) : L W B :=
  fun w =>
    match m w with
    | Run (Returned a) w1 evs1 =>
        match f a w1 with
        | Run st w2 evs2 => Run st w2 (evs1 ++ evs2)%list
        end
    | Run (Raised e) w1 evs1 => Run (Raised e) w1 evs1
    | Run Running w1 evs1 => Run Running w1 evs1
    | Run Exited w1 evs1 => Run Exited w1 evs1
    end.

(** [try: body except Exception as ex: handler ex] *)
Definition try_except {W A} (body : L W A) (handler : exn -> L W A) : L W A :=
  fun w =>
    match body w with
    | Run (Raised e) w1 evs1 =>
        match handler e w1 with
        | Run st w2 evs2 => Run st w2 (evs1 ++ evs2)%list
        end
    | other => other
    end.

Definition emit {W} (e : ev) : L W unit := fun w => Run (Returned tt) w [e].

Definition call {W} (e : result unit -> ev) (f : W -> result unit * W)
    : L W unit :=
  fun w =>
    match f w with
    | (inl ex, w') => Run (Raised ex) w' [e (inl ex)]
    | (inr tt, w') => Run (Returned tt) w' [e (inr tt)]
    end.

(** A function of the core program, run as it is. *)
Definition of_core {W A} (m : M W A) : L W A :=
  fun w =>
    match m w with
    | Out (inl e) w1 evs => Run (Raised e) w1 (map Core evs)
    | Out (inr a) w1 evs => Run (Returned a) w1 (map Core evs)
    end.

(** A function whose body is a [while True] without [break], observed
    for a bounded number of turns: when the observation ends without an
    exception the function has not returned, it is still in its loop. *)
Definition forever {W} (m : M W unit) : L W unit :=
  fun w =>
    match m w with
    | Out (inl e) w1 evs => Run (Raised e) w1 (map Core evs)
    | Out (inr _) w1 evs => Run Running w1 (map Core evs)
    end.

(** What [parser.parse_args()] made of the command line: a namespace
    with the one positional argument [opt], or an exit of its own (usage
    error or help) with the given status, before the program logs
    anything. *)
Inductive parse_result : Type :=
| Namespace (opt : string)
| ArgparseExit (code : Z).

Declare Scope life_scope.
Delimit Scope life_scope with life.
Notation "m ;; k" := (bind m (fun _ => k))
  (at level 100, right associativity) : life_scope.

Section Program.

Context {W : Type}.
Variable H : Host W.
Variable settings : Settings.

Local Open Scope life_scope.

Definition log_debug (text : string) : L W unit := emit (Core (LogDebug text)).
Definition log_error (text : string) : L W unit := emit (Core (LogError text)).

(** [start_mqtt()], lines 116-136 *)
Definition start_mqtt : L W unit :=
  try_except
    (log_debug "Start MQTT Client" ;;
     call (NewClient (MQTT_CLIENT_ID settings))
          (client_new H (MQTT_CLIENT_ID settings)) ;;
     emit (SetCallback OnConnect) ;;
     emit (SetCallback OnMessage) ;;
     emit (SetCallback OnPublish) ;;
     emit (SetCallback OnSubscribe) ;;
     log_debug ("MQTT connect to " ++ MQTT_SERVER settings ++ ", "
                ++ int_repr (MQTT_PORT settings)) ;;
     call (Connect (MQTT_SERVER settings) (MQTT_PORT settings))
          (client_connect H (MQTT_SERVER settings) (MQTT_PORT settings)) ;;
     call LoopForever (client_loop_forever H))
    (fun ex =>
       log_error ("Exception in start_mqtt()! exception: " ++ exn_str ex) ;;
       reraise ex).

(** [start_router_app()], lines 139-153, its publisher loop observed for
    [fuel] turns *)
Definition start_router_app (fuel : nat) : L W unit :=
  try_except
    (log_debug "start_router_app()" ;;
     call (ThreadStart "start_mqtt") (thread_start H) ;;
     forever (publish_thread (core H) settings fuel) ;;
     of_core (time_sleep 36000))
    (fun ex =>
       log_error ("Exception during start_router_app()! exception: "
                  ++ exn_str ex) ;;
       reraise ex).

(** [stop_router_app()], lines 156-162 *)
Definition stop_router_app : L W unit :=
  try_except
    (log_debug "stop_router_app()")
    (fun ex =>
       log_error ("Exception during stop_router_app()! exception: "
                  ++ exn_str ex) ;;
       reraise ex).

(** [action(command)], lines 165-177 *)
Definition action (command : string) (fuel : nat) : L W unit :=
  try_except
    (log_debug ("action(" ++ command ++ ")") ;;
     if String.eqb command "start" then start_router_app fuel
     else if String.eqb command "stop" then stop_router_app
     else ret tt)
    (fun ex =>
       log_error ("Exception during " ++ command ++ "! exception: "
                  ++ exn_str ex) ;;
       reraise ex).

(** The main block from line 185 on, for the value [arg] that
    [parser.parse_args()] returned as [args.opt] *)
Definition main (arg : string) (fuel : nat) : L W unit :=
  let opt := py_strip arg in
  (if negb (String.eqb opt "start" || String.eqb opt "stop")
   then (log_debug ("Failed to run command: " ++ opt) ;; exit)
   else ret tt) ;;
  action opt fuel ;;
  log_debug "App is exiting".

(** The whole main block, lines 180-192.  [parser.parse_args()] is
    argparse's: what it made of the command line is given. *)
Definition main_block (parsed : parse_result) (fuel : nat) : L W unit :=
  match parsed with
  | ArgparseExit _ => exit
  | Namespace opt => main opt fuel
  end.

End Program.

(** A host around a scripted platform, each further call with a fixed
    result. *)
Definition scripted_host (P : Platform unit)
    (new connect loop thread : result unit) : Host unit := {|
  core := P;
  client_new := fun _ w => (new, w);
  client_connect := fun _ _ w => (connect, w);
  client_loop_forever := fun w => (loop, w);
  thread_start := fun w => (thread, w)
|}.

Definition cannot_start_thread : exn :=
  MkExn "RuntimeError" "can't start new thread".

Definition up : Host unit := scripted_host healthy ok ok ok ok.
Definition broker_unreachable : Host unit :=
  scripted_host healthy ok (inl broker_down) ok ok.
Definition no_threads : Host unit :=
  scripted_host healthy ok ok ok (inl cannot_start_thread).

End Lifecycle.

(** * Properties *)

(** ** The connect callback *)

Section OnConnect.

Context {W : Type}.
Variable P : Platform W.
Variable s : Settings.

Lemma on_connect_events (rc : Z) (w : W) :
  exists r,
    r = fst (client_subscribe P (subscribe_topics s) w) /\
    (out_events (on_connect P s rc w) =
       [LogDebug ("MQTT Client connection results: " ++ connack_string P rc);
        Subscribe (subscribe_topics s) r]
     \/ exists ex,
       r = inl ex /\
       out_events (on_connect P s rc w) =
         [LogDebug ("MQTT Client connection results: " ++ connack_string P rc);
          Subscribe (subscribe_topics s) r;
          LogError ("Client Subscribe exception. ex=" ++ exn_str ex)]).
Proof.
  unfold on_connect, try_except, bind, subscribe_call, call, log_debug,
    log_error, emit.
  cbn.
  destruct (client_subscribe P (subscribe_topics s) w) as [[ex | []] w'];
    cbn; eexists; split; eauto.
Qed.

(** C4: a successful connect (result code 0) makes [on_connect] issue
    exactly one subscribe request, and that request lists exactly the
    three topics GPS_TOPIC, MODEM_TEMP_TOPIC and
    WAN_CONNECTION_STATE_TOPIC, each at MQTT_QOS. *)
Theorem on_connect_success_subscribes_once (w : W) :
  exists r,
    filter is_subscribe (out_events (on_connect P s 0 w)) =
      [Subscribe [(GPS_TOPIC s, MQTT_QOS s);
                  (MODEM_TEMP_TOPIC s, MQTT_QOS s);
                  (WAN_CONNECTION_STATE_TOPIC s, MQTT_QOS s)] r].
Proof.
  destruct (on_connect_events 0 w) as [r [_ [H | [ex [_ H]]]]];
    rewrite H; exists r; reflexivity.
Qed.

(** C5, amended: [on_connect] never looks at the result code.  For every
    code, refusals included, it does what it does on success: it logs the
    result string, issues the one subscribe request for the three topics,
    logs and swallows an exception of that call, and returns normally.
    The code shows in the text of the first log line and nowhere else. *)
Theorem on_connect_subscribes_whatever_rc (rc : Z) (w : W) :
  let topics := [(GPS_TOPIC s, MQTT_QOS s);
                 (MODEM_TEMP_TOPIC s, MQTT_QOS s);
                 (WAN_CONNECTION_STATE_TOPIC s, MQTT_QOS s)] in
  out_res (on_connect P s rc w) = inr tt
  /\ out_world (on_connect P s rc w) = snd (client_subscribe P topics w)
  /\ out_events (on_connect P s rc w) =
       LogDebug ("MQTT Client connection results: " ++ connack_string P rc)
       :: Subscribe topics (fst (client_subscribe P topics w))
       :: match fst (client_subscribe P topics w) with
          | inl ex => [LogError ("Client Subscribe exception. ex=" ++ exn_str ex)]
          | inr _ => []
          end.
Proof.
  unfold on_connect, try_except, bind, subscribe_call, call, log_debug,
    log_error, emit, subscribe_topics.
  cbn.
  destruct (client_subscribe P _ w) as [[ex | []] w']; cbn; auto.
Qed.

(** C8: when the subscribe call raises, [on_connect] catches the
    exception, logs it and returns normally; apart from the two log
    lines the failed subscribe is the only thing it did. *)
Theorem on_connect_swallows_subscribe_exception
    (rc : Z) (w w' : W) (ex : exn) :
  client_subscribe P (subscribe_topics s) w = (inl ex, w') ->
  out_res (on_connect P s rc w) = inr tt
  /\ out_world (on_connect P s rc w) = w'
  /\ out_events (on_connect P s rc w) =
       [LogDebug ("MQTT Client connection results: " ++ connack_string P rc);
        Subscribe (subscribe_topics s) (inl ex);
        LogError ("Client Subscribe exception. ex=" ++ exn_str ex)].
Proof.
  intros H.
  unfold on_connect, try_except, bind, subscribe_call, call, log_debug,
    log_error, emit.
  cbn. rewrite H. cbn. auto.
Qed.

End OnConnect.

(** C5 as stated fails: here the broker refuses the connection with code
    5, and the handler still sends the subscribe request. *)
Lemma on_connect_refused_still_subscribes :
  connack_string healthy 5 = "Connection Refused: not authorised."
  /\ out_events (on_connect healthy sample_settings 5 tt) =
       [LogDebug "MQTT Client connection results: Connection Refused: not authorised.";
        Subscribe [("/status/gps/lastpos", 0);
                   ("/status/system/modem_temperature", 0);
                   ("/status/wan/connection_state", 0)] (inr tt)]
  /\ out_events (on_connect healthy sample_settings 5 tt) <>
       [LogDebug "MQTT Client connection results: Connection Refused: not authorised."].
Proof.
  repeat split; try reflexivity. discriminate.
Qed.

Lemma on_connect_swallows_subscribe_exception_witness :
  out_res (on_connect subscribe_raises sample_settings 0 tt) = inr tt
  /\ out_world (on_connect subscribe_raises sample_settings 0 tt) = tt
  /\ out_events (on_connect subscribe_raises sample_settings 0 tt) =
       [LogDebug "MQTT Client connection results: Connection Accepted.";
        Subscribe [("/status/gps/lastpos", 0);
                   ("/status/system/modem_temperature", 0);
                   ("/status/wan/connection_state", 0)] (inl invalid_topic);
        LogError "Client Subscribe exception. ex=Invalid topic."].
Proof.
  apply (on_connect_swallows_subscribe_exception
           subscribe_raises sample_settings 0 tt tt invalid_topic).
  reflexivity.
Defined.

(** ** The publisher loop *)

Ltac unfold_cycle :=
  unfold publish_iteration, publish_try, try_except, bind, CSClient_get,
    publish_single_call, publish_multiple_call, call, lift, time_sleep,
    log_error, emit, batch_msgs; cbn.

Ltac split_call :=
  match goal with
  | |- context [cs_get ?P ?k ?w] =>
      destruct (cs_get P k w) as [[?ex | ?r] ?w] eqn:?
  | |- context [publish_single ?P ?t ?p ?q ?h ?n ?w] =>
      destruct (publish_single P t p q h n w) as [[?ex | []] ?w] eqn:?
  | |- context [publish_multiple ?P ?m ?h ?n ?w] =>
      destruct (publish_multiple P m h n w) as [[?ex | []] ?w] eqn:?
  | |- context [py_get ?v ?k ?d] =>
      destruct (py_get v k d) as [?ex | ?v] eqn:?
  | |- context [gps_pos ?v] =>
      destruct (gps_pos v) as [?ex | ?pos] eqn:?
  | |- context [match ?v with PDict _ => _ | _ => _ end] =>
      is_var v; destruct v
  end; cbn.

Ltac run_cycle := unfold_cycle; repeat split_call.

Section Publisher.

Context {W : Type}.
Variable P : Platform W.
Variable s : Settings.

Lemma publish_iteration_returns (w : W) :
  out_res (publish_iteration P s w) = inr tt.
Proof.
  run_cycle; reflexivity.
Qed.

Lemma publish_iteration_logs (w : W) (ex : exn) :
  out_res (publish_try P s w) = inl ex ->
  out_world (publish_iteration P s w) = out_world (publish_try P s w)
  /\ out_events (publish_iteration P s w) =
       (out_events (publish_try P s w)
        ++ [LogError ("Exception in send_gps(). ex: " ++ exn_str ex)])%list.
Proof.
  unfold publish_iteration, try_except, log_error, emit. intros H.
  destruct (publish_try P s w) as [[e | []] w1 evs1]; cbn in *.
  - injection H as ->. auto.
  - discriminate H.
Qed.

Lemma publish_try_raise_no_sleep (w : W) (ex : exn) :
  out_res (publish_try P s w) = inl ex ->
  filter is_sleep (out_events (publish_iteration P s w)) = [].
Proof.
  run_cycle; intros H; try discriminate H; reflexivity.
Qed.

Lemma publish_try_return_sleeps (w : W) :
  out_res (publish_try P s w) = inr tt ->
  exists evs,
    out_events (publish_iteration P s w) = (evs ++ [Sleep 10])%list
    /\ filter is_sleep evs = [].
Proof.
  run_cycle; intros H; try discriminate H.
  eexists [_; _; _; _; _]. split; reflexivity.
Qed.

Lemma while_true_publish (n : nat) (w : W) :
  out_res (while_true n (publish_iteration P s) w) = inr tt
  /\ out_world (while_true n (publish_iteration P s) w) =
       Nat.iter n (fun w0 => out_world (publish_iteration P s w0)) w
  /\ out_events (while_true n (publish_iteration P s) w) =
       turns_events P s n w.
Proof.
  revert w. induction n as [| n IH]; intros w.
  - cbn. auto.
  - rewrite Nat.iter_succ_r. cbn [while_true turns_events]. unfold bind.
    pose proof (publish_iteration_returns w) as Hret.
    destruct (publish_iteration P s w) as [r1 w1 evs1]. cbn in Hret. subst r1.
    destruct (IH w1) as [Hr [Hw He]].
    destruct (while_true n (publish_iteration P s) w1) as [r2 w2 evs2].
    cbn in *. subst. auto.
Qed.

Lemma turns_events_app (m n : nat) (w : W) :
  turns_events P s (m + n) w =
    (turns_events P s m w
     ++ turns_events P s n
          (Nat.iter m (fun w0 => out_world (publish_iteration P s w0)) w))%list.
Proof.
  revert w. induction m as [| m IH]; intros w.
  - reflexivity.
  - rewrite Nat.iter_succ_r. cbn [Nat.add turns_events].
    rewrite IH, app_assoc. reflexivity.
Qed.

(** C3: an exception raised by any step of a cycle is caught and logged
    inside the loop.  Whatever turn [m] it happens in, the turn itself
    returns normally, no exception leaves [publish_thread], and the loop
    goes on with the following turns from the world the failed one
    left. *)
Theorem publish_loop_survives_failed_cycle (m n : nat) (w : W) (ex : exn) :
  let w_m := Nat.iter m (fun w0 => out_world (publish_iteration P s w0)) w in
  out_res (publish_try P s w_m) = inl ex ->
  out_res (publish_iteration P s w_m) = inr tt
  /\ out_res (publish_thread P s (m + S n) w) = inr tt
  /\ out_events (publish_thread P s (m + S n) w) =
       (LogDebug "Start publish_thread()"
        :: turns_events P s m w
        ++ (out_events (publish_try P s w_m)
            ++ [LogError ("Exception in send_gps(). ex: " ++ exn_str ex)])
        ++ turns_events P s n (out_world (publish_try P s w_m)))%list.
Proof.
  intros w_m H.
  destruct (publish_iteration_logs w_m ex H) as [Hw He].
  split; [apply publish_iteration_returns |].
  unfold publish_thread, bind, log_debug, emit.
  destruct (while_true_publish (m + S n) w) as [Hr [_ Hev]].
  destruct (while_true (m + S n) (publish_iteration P s) w) as [r2 w2 evs2].
  cbn in *. subst r2 evs2. split; [reflexivity |].
  rewrite turns_events_app. fold w_m. cbn [turns_events].
  rewrite He, Hw. reflexivity.
Qed.

End Publisher.

(** C2 fails on the code: with a data source that has no GPS record the
    first turn raises at line 95, the handler logs, and the second turn
    starts at once: no [Sleep] lies between the two reads. *)
Theorem publish_thread_failed_cycle_skips_sleep :
  out_events (publish_thread gps_absent sample_settings 2 tt) =
    [LogDebug "Start publish_thread()";
     CsGet "/status/gps/lastpos" (inr PNone);
     LogError "Exception in send_gps(). ex: 'NoneType' object has no attribute 'get'";
     CsGet "/status/gps/lastpos" (inr PNone);
     LogError "Exception in send_gps(). ex: 'NoneType' object has no attribute 'get'"].
Proof.
  reflexivity.
Qed.

Lemma publish_loop_survives_failed_cycle_witness :
  out_res (publish_iteration flaky sample_settings 0%nat) = inr tt
  /\ out_res (publish_thread flaky sample_settings 2 0%nat) = inr tt
  /\ out_events (publish_thread flaky sample_settings 2 0%nat) =
       (LogDebug "Start publish_thread()"
        :: []
        ++ ([CsGet "/status/gps/lastpos" (inr PNone)]
            ++ [LogError "Exception in send_gps(). ex: 'NoneType' object has no attribute 'get'"])
        ++ turns_events flaky sample_settings 1 1%nat)%list.
Proof.
  apply (publish_loop_survives_failed_cycle flaky sample_settings
           0 1 0%nat
           (AttributeError "'NoneType' object has no attribute 'get'")).
  reflexivity.
Defined.

(** The turn after the failed one runs in full. *)
Example flaky_second_turn :
  turns_events flaky sample_settings 1 1%nat =
    [CsGet "/status/gps/lastpos"
       (inr (PDict [("data", PDict [("longitude", PFloat "-97.1");
                                    ("latitude", PFloat "32.7")])]));
     PublishSingle "/status/gps/lastpos"
       ("{" ++ dquote ++ "logitude" ++ dquote ++ ": -97.1, "
        ++ dquote ++ "latitude" ++ dquote ++ ": 32.7}")
       0 "test.mosquitto.org" 1883 (inr tt);
     CsGet "/status/system/modem_temperature" (inr (PDict [("data", PInt 41)]));
     CsGet "/status/wan/connection_state"
       (inr (PDict [("data", PStr "connected")]));
     PublishMultiple healthy_msgs "test.mosquitto.org" 1883 (inr tt);
     Sleep 10].
Proof.
  reflexivity.
Qed.

(** ** One publish cycle *)

Lemma string_app_assoc (a b c : string) : (a ++ b) ++ c = a ++ (b ++ c).
Proof.
  induction a as [| ch a IH]; cbn; [reflexivity | now rewrite IH].
Qed.

Lemma string_app_nil_r (a : string) : a ++ EmptyString = a.
Proof.
  induction a as [| ch a IH]; cbn; [reflexivity | now rewrite IH].
Qed.

Lemma json_dumps_gps_pos (lon lat : pyval) :
  json_dumps (PDict [("logitude", lon); ("latitude", lat)]) =
    "{" ++ dquote ++ "logitude" ++ dquote ++ ": " ++ json_dumps lon ++ ", "
    ++ dquote ++ "latitude" ++ dquote ++ ": " ++ json_dumps lat ++ "}".
Proof.
  cbn [json_dumps]. unfold encode_basestring_ascii. cbn [escape_string].
  cbv [escape_char dquote backslash]. cbn.
  repeat (rewrite ?string_app_assoc, ?string_app_nil_r; cbn).
  reflexivity.
Qed.

Section Cycle.

Context {W : Type}.
Variable P : Platform W.
Variable s : Settings.

Local Arguments json_dumps : simpl never.

(** C1: when the data source returns a GPS record whose ['data'] holds
    [longitude] and [latitude], the one single-shot publish of the cycle
    goes to the GPS topic and carries the JSON text of the two-member
    object with the longitude under the key [logitude] and the latitude
    under [latitude]. *)
Theorem gps_payload_uses_logitude_key
    (w w1 : W) (rec gps : list (string * pyval)) (lon lat : pyval) :
  cs_get P (GPS_TOPIC s) w = (inr (PDict rec), w1) ->
  assoc "data" rec = Some (PDict gps) ->
  assoc "longitude" gps = Some lon ->
  assoc "latitude" gps = Some lat ->
  exists r,
    filter is_single (out_events (publish_iteration P s w)) =
      [PublishSingle (GPS_TOPIC s)
         ("{" ++ dquote ++ "logitude" ++ dquote ++ ": " ++ json_dumps lon
          ++ ", " ++ dquote ++ "latitude" ++ dquote ++ ": " ++ json_dumps lat
          ++ "}")
         (MQTT_QOS s) (MQTT_SERVER s) (MQTT_PORT s) r]
    /\ json_dumps (PDict [("logitude", lon); ("latitude", lat)]) =
         "{" ++ dquote ++ "logitude" ++ dquote ++ ": " ++ json_dumps lon
         ++ ", " ++ dquote ++ "latitude" ++ dquote ++ ": " ++ json_dumps lat
         ++ "}".
Proof.
  intros Hget Hdata Hlon Hlat.
  rewrite <- json_dumps_gps_pos.
  unfold_cycle. rewrite Hget. cbn.
  unfold dict_get. rewrite Hdata. cbn.
  unfold gps_pos, py_get, dict_get. rewrite Hlon, Hlat. cbn.
  repeat split_call; eexists; split; reflexivity.
Qed.

(** C10: when the GPS record is a dict, building the payload does not
    raise whatever keys the dict has: the cycle goes on to the publish
    call, and a field whose key is missing is written as JSON null. *)
Theorem gps_payload_null_for_missing_field
    (w w1 : W) (rec gps : list (string * pyval)) :
  cs_get P (GPS_TOPIC s) w = (inr (PDict rec), w1) ->
  assoc "data" rec = Some (PDict gps) ->
  assoc "longitude" gps = None \/ assoc "latitude" gps = None ->
  exists r,
    nth_error (out_events (publish_iteration P s w)) 1 =
      Some (PublishSingle (GPS_TOPIC s)
              ("{" ++ dquote ++ "logitude" ++ dquote ++ ": "
               ++ json_field (assoc "longitude" gps) ++ ", "
               ++ dquote ++ "latitude" ++ dquote ++ ": "
               ++ json_field (assoc "latitude" gps) ++ "}")
              (MQTT_QOS s) (MQTT_SERVER s) (MQTT_PORT s) r).
Proof.
  intros Hget Hdata _.
  assert (Hf : forall k, json_field (assoc k gps) = json_dumps (dict_get gps k PNone)).
  { intros k. unfold dict_get, json_field. destruct (assoc k gps); reflexivity. }
  rewrite !Hf, <- json_dumps_gps_pos.
  unfold_cycle. rewrite Hget. cbn.
  unfold dict_get at 1. rewrite Hdata. cbn.
  repeat split_call; eexists; reflexivity.
Qed.

(** C9: a cycle whose events include the batch publish began with a GPS
    read that returned and a single-shot GPS publish that returned; both
    stand in the trace before the batch. *)
Theorem batch_only_after_gps_publish
    (w : W) (msgs : list message) (h : string) (p : Z) (r : result unit) :
  In (PublishMultiple msgs h p r) (out_events (publish_iteration P s w)) ->
  exists record payload w1 w2 between rest,
    cs_get P (GPS_TOPIC s) w = (inr record, w1)
    /\ publish_single P (GPS_TOPIC s) payload (MQTT_QOS s) (MQTT_SERVER s)
         (MQTT_PORT s) w1 = (inr tt, w2)
    /\ out_events (publish_iteration P s w) =
         (CsGet (GPS_TOPIC s) (inr record)
          :: PublishSingle (GPS_TOPIC s) payload (MQTT_QOS s) (MQTT_SERVER s)
               (MQTT_PORT s) (inr tt)
          :: between ++ PublishMultiple msgs h p r :: rest)%list
    /\ filter is_batch between = [].
Proof.
  run_cycle; intros Hin;
    repeat (destruct Hin as [Hin | Hin]; try discriminate Hin);
    try contradiction;
    injection Hin as <- <- <- <-;
    do 4 eexists;
    eexists [CsGet _ _; CsGet _ _]; eexists;
    (split; [reflexivity |]);
    (split; [eassumption |]);
    split; reflexivity.
Qed.

(** C6: a cycle that reaches the batch step makes exactly one
    [publish.multiple] call; its list holds two messages, the modem
    temperature and the WAN connection state as the two reads of that
    cycle returned them under ['data'], each with retain False; the only
    single-shot publish of that cycle is the GPS one. *)
Theorem batch_is_one_call_not_retained
    (w : W) (msgs : list message) (h : string) (p : Z) (r : result unit) :
  In (PublishMultiple msgs h p r) (out_events (publish_iteration P s w)) ->
  (exists temp_record wan_record,
     nth_error (out_events (publish_iteration P s w)) 2 =
       Some (CsGet (MODEM_TEMP_TOPIC s) (inr (PDict temp_record)))
     /\ nth_error (out_events (publish_iteration P s w)) 3 =
          Some (CsGet (WAN_CONNECTION_STATE_TOPIC s) (inr (PDict wan_record)))
     /\ msgs =
          [(MODEM_TEMP_TOPIC s,
            match assoc "data" temp_record with
            | Some modem_temp => modem_temp
            | None => PStr EmptyString
            end,
            MQTT_QOS s, false);
           (WAN_CONNECTION_STATE_TOPIC s,
            match assoc "data" wan_record with
            | Some wan_connection_state => wan_connection_state
            | None => PNone
            end,
            MQTT_QOS s, false)])
  /\ h = MQTT_SERVER s /\ p = MQTT_PORT s
  /\ Forall (fun m => msg_retain m = false) msgs
  /\ filter is_batch (out_events (publish_iteration P s w)) =
       [PublishMultiple msgs h p r]
  /\ exists pos,
       filter is_single (out_events (publish_iteration P s w)) =
         [PublishSingle (GPS_TOPIC s) (json_dumps pos) (MQTT_QOS s)
            (MQTT_SERVER s) (MQTT_PORT s) (inr tt)].
Proof.
  run_cycle; intros Hin;
    repeat (destruct Hin as [Hin | Hin]; try discriminate Hin);
    try contradiction;
    injection Hin as <- <- <- <-;
    repeat match goal with
           | E : py_get ?v _ _ = inr _ |- _ =>
               destruct v; try discriminate E; cbn in E; injection E as <-
           end;
    (split; [do 2 eexists; repeat split; reflexivity |]);
    repeat split; eauto;
    repeat constructor.
Qed.

(** C7: the two reads treat a record without ['data'] differently, each
    on its own.  In every cycle in which the modem temperature read and
    the WAN state read return dicts, the batch carries for the
    temperature the value under ['data'], or the empty string when the
    key is absent, and for the WAN state the value under ['data'], or
    None when the key is absent: the WAN read has no fallback, whatever
    the temperature record holds. *)
Theorem modem_temp_defaults_wan_state_does_not
    (w : W) (temp_record wan_record : list (string * pyval)) :
  nth_error (out_events (publish_iteration P s w)) 2 =
    Some (CsGet (MODEM_TEMP_TOPIC s) (inr (PDict temp_record))) ->
  nth_error (out_events (publish_iteration P s w)) 3 =
    Some (CsGet (WAN_CONNECTION_STATE_TOPIC s) (inr (PDict wan_record))) ->
  exists r,
    nth_error (out_events (publish_iteration P s w)) 4 =
      Some (PublishMultiple
              [(MODEM_TEMP_TOPIC s,
                match assoc "data" temp_record with
                | Some modem_temp => modem_temp
                | None => PStr EmptyString
                end,
                MQTT_QOS s, false);
               (WAN_CONNECTION_STATE_TOPIC s,
                match assoc "data" wan_record with
                | Some wan_connection_state => wan_connection_state
                | None => PNone
                end,
                MQTT_QOS s, false)]
              (MQTT_SERVER s) (MQTT_PORT s) r).
Proof.
  unfold_cycle.
  repeat split_call; intros H2 H3;
    try discriminate H2; try discriminate H3;
    injection H2 as ->; injection H3 as ->;
    cbn in *; unfold dict_get in *;
    try discriminate;
    repeat match goal with
           | E : inr _ = inr _ |- _ => injection E as <-
           end;
    eexists; reflexivity.
Qed.

End Cycle.

Lemma gps_payload_uses_logitude_key_witness :
  exists r,
    filter is_single (out_events (publish_iteration healthy sample_settings tt)) =
      [PublishSingle "/status/gps/lastpos"
         ("{" ++ dquote ++ "logitude" ++ dquote ++ ": -97.1, "
          ++ dquote ++ "latitude" ++ dquote ++ ": 32.7}")
         0 "test.mosquitto.org" 1883 r]
    /\ json_dumps (PDict [("logitude", PFloat "-97.1");
                          ("latitude", PFloat "32.7")]) =
         "{" ++ dquote ++ "logitude" ++ dquote ++ ": -97.1, "
         ++ dquote ++ "latitude" ++ dquote ++ ": 32.7}".
Proof.
  apply (gps_payload_uses_logitude_key healthy sample_settings tt tt
           [("data", PDict [("longitude", PFloat "-97.1");
                            ("latitude", PFloat "32.7")])]
           [("longitude", PFloat "-97.1"); ("latitude", PFloat "32.7")]
           (PFloat "-97.1") (PFloat "32.7"));
    reflexivity.
Defined.

Lemma gps_payload_null_for_missing_field_witness :
  exists r,
    nth_error (out_events (publish_iteration no_fix sample_settings tt)) 1 =
      Some (PublishSingle "/status/gps/lastpos"
              ("{" ++ dquote ++ "logitude" ++ dquote ++ ": null, "
               ++ dquote ++ "latitude" ++ dquote ++ ": null}")
              0 "test.mosquitto.org" 1883 r).
Proof.
  apply (gps_payload_null_for_missing_field no_fix sample_settings tt tt
           [("data", PDict [])] []);
    [reflexivity | reflexivity | left; reflexivity].
Defined.

Lemma batch_only_after_gps_publish_witness :
  exists record payload w1 w2 between rest,
    cs_get healthy "/status/gps/lastpos" tt = (inr record, w1)
    /\ publish_single healthy "/status/gps/lastpos" payload 0
         "test.mosquitto.org" 1883 w1 = (inr tt, w2)
    /\ out_events (publish_iteration healthy sample_settings tt) =
         (CsGet "/status/gps/lastpos" (inr record)
          :: PublishSingle "/status/gps/lastpos" payload 0
               "test.mosquitto.org" 1883 (inr tt)
          :: between
          ++ PublishMultiple healthy_msgs "test.mosquitto.org" 1883 (inr tt)
          :: rest)%list
    /\ filter is_batch between = [].
Proof.
  apply (batch_only_after_gps_publish healthy sample_settings tt
           healthy_msgs "test.mosquitto.org" 1883 (inr tt)).
  do 4 right. left. reflexivity.
Defined.

Lemma batch_is_one_call_not_retained_witness :
  (exists temp_record wan_record,
     nth_error (out_events (publish_iteration healthy sample_settings tt)) 2 =
       Some (CsGet "/status/system/modem_temperature" (inr (PDict temp_record)))
     /\ nth_error (out_events (publish_iteration healthy sample_settings tt)) 3 =
          Some (CsGet "/status/wan/connection_state" (inr (PDict wan_record)))
     /\ healthy_msgs =
          [("/status/system/modem_temperature",
            match assoc "data" temp_record with
            | Some modem_temp => modem_temp
            | None => PStr EmptyString
            end,
            0, false);
           ("/status/wan/connection_state",
            match assoc "data" wan_record with
            | Some wan_connection_state => wan_connection_state
            | None => PNone
            end,
            0, false)])
  /\ "test.mosquitto.org" = "test.mosquitto.org" /\ 1883 = 1883
  /\ Forall (fun m => msg_retain m = false) healthy_msgs
  /\ filter is_batch (out_events (publish_iteration healthy sample_settings tt)) =
       [PublishMultiple healthy_msgs "test.mosquitto.org" 1883 (inr tt)]
  /\ exists pos,
       filter is_single
         (out_events (publish_iteration healthy sample_settings tt)) =
         [PublishSingle "/status/gps/lastpos" (json_dumps pos) 0
            "test.mosquitto.org" 1883 (inr tt)].
Proof.
  apply (batch_is_one_call_not_retained healthy sample_settings tt
           healthy_msgs "test.mosquitto.org" 1883 (inr tt)).
  do 4 right. left. reflexivity.
Defined.

Lemma modem_temp_defaults_wan_state_does_not_witness :
  exists r,
    nth_error (out_events (publish_iteration gps_only sample_settings tt)) 4 =
      Some (PublishMultiple
              [("/status/system/modem_temperature", PStr EmptyString, 0, false);
               ("/status/wan/connection_state", PNone, 0, false)]
              "test.mosquitto.org" 1883 r).
Proof.
  apply (modem_temp_defaults_wan_state_does_not gps_only sample_settings tt
           [("success", PBool true)] [("success", PBool true)]);
    reflexivity.
Defined.

(** A temperature that is there gives the WAN state no default. *)
Example wan_state_none_beside_a_temperature :
  nth_error (out_events (publish_iteration wan_no_data sample_settings tt)) 4 =
    Some (PublishMultiple
            [("/status/system/modem_temperature", PInt 41, 0, false);
             ("/status/wan/connection_state", PNone, 0, false)]
            "test.mosquitto.org" 1883 (inr tt)).
Proof.
  reflexivity.
Qed.

(** A WAN state that is there does not take the default from the
    temperature. *)
Example modem_temp_empty_beside_a_wan_state :
  nth_error (out_events (publish_iteration temp_no_data sample_settings tt)) 4 =
    Some (PublishMultiple
            [("/status/system/modem_temperature", PStr EmptyString, 0, false);
             ("/status/wan/connection_state", PStr "connected", 0, false)]
            "test.mosquitto.org" 1883 (inr tt)).
Proof.
  reflexivity.
Qed.

(** * Further properties of the callback and the publisher *)

Section More.

Context {W : Type}.
Variable P : Platform W.
Variable s : Settings.

Local Arguments json_dumps : simpl never.

Lemma on_connect_returns (rc : Z) (w : W) :
  out_res (on_connect P s rc w) = inr tt.
Proof.
  unfold on_connect, try_except, bind, subscribe_call, call, log_debug,
    log_error, emit.
  cbn.
  destruct (client_subscribe P (subscribe_topics s) w) as [[ex | []] w'];
    reflexivity.
Qed.

(** X1: a GPS record that is a dict whose ['data'] is missing or is not
    itself a dict (no fix yet) ends the cycle at line 95: the turn logs
    the AttributeError naming the type found and publishes nothing, the
    modem temperature and the WAN state included. *)
Theorem cycle_aborts_when_gps_data_is_not_a_dict
    (w w1 : W) (record : list (string * pyval)) (v : pyval) :
  cs_get P (GPS_TOPIC s) w = (inr (PDict record), w1) ->
  dict_get record "data" PNone = v ->
  (forall d, v <> PDict d) ->
  out_events (publish_iteration P s w) =
    [CsGet (GPS_TOPIC s) (inr (PDict record));
     LogError ("Exception in send_gps(). ex: '" ++ py_type_name v
               ++ "' object has no attribute 'get'")]
  /\ out_world (publish_iteration P s w) = w1.
Proof.
  intros Hget Hdata Hv.
  unfold_cycle. rewrite Hget. cbn. rewrite Hdata.
  unfold gps_pos, py_get.
  destruct v; cbn; auto.
  exfalso. eapply Hv. reflexivity.
Qed.

(** X2: a cycle whose try block runs to its end made exactly six calls,
    in this order: the GPS read, the single-shot publish of the GPS
    payload, the modem temperature read, the WAN state read, the batch
    publish of the two values just read, and a sleep of 10 seconds. *)
Theorem completed_cycle_trace (w : W) :
  out_res (publish_try P s w) = inr tt ->
  exists r_gps gps_lastpos pos r_temp r_wan modem_temp wan_connection_state,
    py_get r_gps "data" PNone = inr gps_lastpos
    /\ gps_pos gps_lastpos = inr pos
    /\ py_get r_temp "data" (PStr EmptyString) = inr modem_temp
    /\ py_get r_wan "data" PNone = inr wan_connection_state
    /\ out_events (publish_iteration P s w) =
         [CsGet (GPS_TOPIC s) (inr r_gps);
          PublishSingle (GPS_TOPIC s) (json_dumps pos) (MQTT_QOS s)
            (MQTT_SERVER s) (MQTT_PORT s) (inr tt);
          CsGet (MODEM_TEMP_TOPIC s) (inr r_temp);
          CsGet (WAN_CONNECTION_STATE_TOPIC s) (inr r_wan);
          PublishMultiple
            [(MODEM_TEMP_TOPIC s, modem_temp, MQTT_QOS s, false);
             (WAN_CONNECTION_STATE_TOPIC s, wan_connection_state,
              MQTT_QOS s, false)]
            (MQTT_SERVER s) (MQTT_PORT s) (inr tt);
          Sleep 10].
Proof.
  run_cycle; intros H; try discriminate H.
  do 7 eexists. repeat apply conj.
  5: reflexivity.
  all: eassumption.
Qed.

(** X3: when the batch publish raises, the GPS message of that cycle has
    already been published and stays published; the turn logs the
    exception right after the failed call, does not sleep, and returns
    normally. *)
Theorem batch_failure_keeps_gps_publish
    (w : W) (msgs : list message) (h : string) (p : Z) (ex : exn) :
  In (PublishMultiple msgs h p (inl ex)) (out_events (publish_iteration P s w)) ->
  exists before payload,
    out_events (publish_iteration P s w) =
      (before
       ++ [PublishMultiple msgs h p (inl ex);
           LogError ("Exception in send_gps(). ex: " ++ exn_str ex)])%list
    /\ In (PublishSingle (GPS_TOPIC s) payload (MQTT_QOS s) (MQTT_SERVER s)
             (MQTT_PORT s) (inr tt)) before
    /\ filter is_sleep (out_events (publish_iteration P s w)) = []
    /\ out_res (publish_iteration P s w) = inr tt.
Proof.
  run_cycle; intros Hin;
    repeat (destruct Hin as [Hin | Hin]; try discriminate Hin);
    try contradiction.
  injection Hin as <- <- <- <-.
  eexists [_; _; _; _]. eexists.
  split; [reflexivity |].
  split; [right; left; reflexivity |].
  split; reflexivity.
Qed.

Lemma turn_counts (w : W) :
  let evs := out_events (publish_iteration P s w) in
  (count is_sleep evs <= count is_batch evs)%nat
  /\ (count is_batch evs <= count is_single evs)%nat
  /\ (count is_single evs <= 1)%nat
  /\ count is_subscribe evs = 0%nat
  /\ forall e, In e evs -> is_sleep e = true -> e = Sleep 10.
Proof.
  unfold count. run_cycle;
    (repeat split; try lia;
     intros e Hin He;
     repeat (destruct Hin as [<- | Hin]; try discriminate He);
     try contradiction; reflexivity).
Qed.

Lemma count_app (f : event -> bool) (a b : list event) :
  count f (a ++ b) = (count f a + count f b)%nat.
Proof.
  unfold count. rewrite filter_app, length_app. reflexivity.
Qed.

Lemma turns_counts (n : nat) (w : W) :
  let evs := turns_events P s n w in
  (count is_sleep evs <= count is_batch evs)%nat
  /\ (count is_batch evs <= count is_single evs)%nat
  /\ (count is_single evs <= n)%nat
  /\ count is_subscribe evs = 0%nat
  /\ forall e, In e evs -> is_sleep e = true -> e = Sleep 10.
Proof.
  revert w. induction n as [| n IH]; intros w; cbn [turns_events].
  - cbn. repeat split; try lia; try (intros e []).
  - destruct (turn_counts w) as (A1 & A2 & A3 & A4 & A5).
    destruct (IH (out_world (publish_iteration P s w))) as (B1 & B2 & B3 & B4 & B5).
    cbn zeta in *. rewrite !count_app.
    repeat split; try lia.
    intros e Hin He. apply in_app_or in Hin. destruct Hin; auto.
Qed.

(** X4: over any number of turns of the publisher there are never more
    sleeps than batch publishes, never more batch publishes than
    single-shot publishes, and at most one single-shot publish per turn;
    every sleep lasts exactly 10 seconds. *)
Theorem publisher_call_counts (n : nat) (w : W) :
  let evs := out_events (publish_thread P s n w) in
  (count is_sleep evs <= count is_batch evs)%nat
  /\ (count is_batch evs <= count is_single evs)%nat
  /\ (count is_single evs <= n)%nat
  /\ forall e, In e evs -> is_sleep e = true -> e = Sleep 10.
Proof.
  unfold publish_thread, bind, log_debug, emit.
  destruct (while_true_publish P s n w) as (_ & _ & Hev).
  destruct (while_true n (publish_iteration P s) w) as [r2 w2 evs2].
  cbn in *. subst evs2.
  destruct (turns_counts n w) as (B1 & B2 & B3 & _ & B5).
  cbn zeta in *. unfold count in *. cbn [filter is_sleep is_batch is_single].
  repeat split; try lia.
  intros e [<- | Hin] He; [discriminate He | auto].
Qed.

(** X5: the publisher and the connect callback use disjoint calls.  The
    publisher loop never subscribes, and [on_connect] never reads the
    data source, never publishes and never sleeps. *)
Theorem publisher_and_callback_calls_are_disjoint
    (n : nat) (rc : Z) (w w' : W) :
  filter is_subscribe (out_events (publish_thread P s n w)) = []
  /\ filter (fun e => is_read e || is_single e || is_batch e || is_sleep e)%bool
       (out_events (on_connect P s rc w')) = [].
Proof.
  split.
  - unfold publish_thread, bind, log_debug, emit.
    destruct (while_true_publish P s n w) as (_ & _ & Hev).
    destruct (while_true n (publish_iteration P s) w) as [r2 w2 evs2].
    cbn in *. subst evs2.
    destruct (turns_counts n w) as (_ & _ & _ & B4 & _).
    cbn zeta in B4. unfold count in B4.
    now apply length_zero_iff_nil.
  - destruct (on_connect_events P s rc w') as [r [_ [H | [ex [_ H]]]]];
      rewrite H; reflexivity.
Qed.

(** X6: subscriptions are renewed on every connect.  When [on_connect]
    is called once for each of a series of connect results, it issues
    one subscribe request per result, each for the same three topics,
    and it returns normally every time, so a subscribe that raised on
    one connect does not keep the next connect from subscribing. *)
Theorem every_connect_renews_subscription (rcs : list Z) (w : W) :
  out_res (on_connect_each P s rcs w) = inr tt
  /\ exists returned,
       List.length returned = List.length rcs
       /\ filter is_subscribe (out_events (on_connect_each P s rcs w)) =
            map (Subscribe (subscribe_topics s)) returned.
Proof.
  revert w. induction rcs as [| rc rest IH]; intros w.
  - cbn. split; [reflexivity |]. exists []. split; reflexivity.
  - cbn [on_connect_each]. unfold bind.
    pose proof (on_connect_returns rc w) as Hret.
    assert (Hsub : exists r,
               filter is_subscribe (out_events (on_connect P s rc w)) =
                 [Subscribe (subscribe_topics s) r]).
    { destruct (on_connect_events P s rc w) as [r [_ [H | [ex [_ H]]]]];
        rewrite H; exists r; reflexivity. }
    destruct Hsub as [r Hsub].
    destruct (on_connect P s rc w) as [r1 w1 evs1]. cbn in Hret, Hsub. subst r1.
    destruct (IH w1) as [Hr [rs [Hlen Hev]]].
    destruct (on_connect_each P s rest w1) as [r2 w2 evs2]. cbn in *.
    split; [assumption |].
    exists (r :: rs). split; [cbn; lia |].
    rewrite filter_app, Hsub, Hev. reflexivity.
Qed.

End More.

(** * Start-up and shutdown *)

Lemma lstrip_all_space (l : string) :
  all_space l = true -> lstrip l = EmptyString.
Proof.
  induction l as [| c l IH]; cbn; [reflexivity |].
  destruct (is_space c); cbn; [exact IH | discriminate].
Qed.

Lemma lstrip_app_space (l x : string) :
  all_space l = true -> lstrip (l ++ x) = lstrip x.
Proof.
  induction l as [| c l IH]; cbn; [reflexivity |].
  destruct (is_space c); cbn; [exact IH | discriminate].
Qed.

Lemma rstrip_all_space (r : string) :
  all_space r = true -> rstrip r = EmptyString.
Proof.
  induction r as [| c r IH]; cbn; [reflexivity |].
  destruct (is_space c); cbn; [| discriminate].
  intros Hr. rewrite (IH Hr). reflexivity.
Qed.

Lemma rstrip_app_space (x r : string) :
  all_space r = true -> rstrip (x ++ r) = rstrip x.
Proof.
  intros Hr. induction x as [| c x IH]; cbn.
  - apply rstrip_all_space, Hr.
  - rewrite IH. reflexivity.
Qed.

Lemma py_strip_padding (l x r : string) :
  all_space l = true -> all_space r = true ->
  py_strip (l ++ x ++ r) = py_strip x.
Proof.
  intros Hl Hr. unfold py_strip. rewrite (lstrip_app_space l _ Hl).
  induction x as [| c x IH]; cbn.
  - rewrite (lstrip_all_space r Hr). reflexivity.
  - destruct (is_space c); [exact IH |].
    change (String c (x ++ r)) with (String c x ++ r).
    apply rstrip_app_space, Hr.
Qed.

Lemma publish_thread_returns {W : Type} (P : Platform W) (s : Settings)
    (fuel : nat) (w : W) :
  out_res (publish_thread P s fuel w) = inr tt.
Proof.
  unfold publish_thread, bind, log_debug, emit.
  destruct (while_true_publish P s fuel w) as (Hr & _ & _).
  destruct (while_true fuel (publish_iteration P s) w) as [r2 w2 evs2].
  exact Hr.
Qed.

Section Life.

Import Lifecycle.

Context {W : Type}.
Variable H : Host W.
Variable s : Settings.

Local Arguments publish_thread : simpl never.

Ltac unfold_life :=
  unfold main_block, main, action, start_router_app, stop_router_app, start_mqtt,
    Lifecycle.try_except, Lifecycle.bind, Lifecycle.call, Lifecycle.emit,
    Lifecycle.log_debug, Lifecycle.log_error, Lifecycle.ret, reraise, exit,
    forever, of_core; cbn.

Ltac split_host :=
  match goal with
  | |- context [client_new ?h ?i ?w] =>
      destruct (client_new h i w) as [[?ex | []] ?w] eqn:?
  | |- context [client_connect ?h ?a ?p ?w] =>
      destruct (client_connect h a p w) as [[?ex | []] ?w] eqn:?
  | |- context [client_loop_forever ?h ?w] =>
      destruct (client_loop_forever h w) as [[?ex | []] ?w] eqn:?
  | |- context [thread_start ?h ?w] =>
      destruct (thread_start h w) as [[?ex | []] ?w] eqn:?
  end; cbn.

(** X7: an exception raised by [connect] is logged by [start_mqtt] and
    raised again to its caller, unlike the one [on_connect] swallows.
    The four callbacks were registered before the attempt and
    [loop_forever] is not entered. *)
Theorem start_mqtt_reraises_connect_failure (w w1 w2 : W) (ex : exn) :
  client_new H (MQTT_CLIENT_ID s) w = (inr tt, w1) ->
  client_connect H (MQTT_SERVER s) (MQTT_PORT s) w1 = (inl ex, w2) ->
  start_mqtt H s w =
    Run (Raised ex) w2
      [Core (LogDebug "Start MQTT Client");
       NewClient (MQTT_CLIENT_ID s) (inr tt);
       SetCallback OnConnect; SetCallback OnMessage;
       SetCallback OnPublish; SetCallback OnSubscribe;
       Core (LogDebug ("MQTT connect to " ++ MQTT_SERVER s ++ ", "
                       ++ int_repr (MQTT_PORT s)));
       Connect (MQTT_SERVER s) (MQTT_PORT s) (inl ex);
       Core (LogError ("Exception in start_mqtt()! exception: " ++ exn_str ex))].
Proof.
  intros Hnew Hconn. unfold_life. rewrite Hnew. cbn. rewrite Hconn. reflexivity.
Qed.

(** X8: [start_mqtt] never hides a failure and never reports one that
    did not happen.  Either it raises, and then the last thing it did was
    to log that very exception, its only error line; or it returns, and
    then [loop_forever] returned and no error line was logged. *)
Theorem start_mqtt_logs_iff_it_raises (w : W) :
  (exists ex before,
     run_status (start_mqtt H s w) = Raised ex
     /\ run_events (start_mqtt H s w) =
          (before
           ++ [Core (LogError ("Exception in start_mqtt()! exception: "
                               ++ exn_str ex))])%list
     /\ filter is_error before = [])
  \/ (exists before,
        run_status (start_mqtt H s w) = Returned tt
        /\ run_events (start_mqtt H s w) = (before ++ [LoopForever (inr tt)])%list
        /\ filter is_error (run_events (start_mqtt H s w)) = []).
Proof.
  unfold_life. repeat split_host.
  - left. eexists. eexists [_; _]. repeat split.
  - left. eexists. eexists [_; _; _; _; _; _; _; _]. repeat split.
  - left. eexists. eexists [_; _; _; _; _; _; _; _; _]. repeat split.
  - right. eexists [_; _; _; _; _; _; _; _]. repeat split.
Qed.

(** X9: whenever [start_mqtt] reaches the [connect] call, the client was
    created and all four callbacks were assigned before it, so no
    CONNACK can arrive at a client without its [on_connect]. *)
Theorem start_mqtt_registers_callbacks_before_connect
    (w : W) (host : string) (port : Z) (r : result unit) :
  In (Connect host port r) (run_events (start_mqtt H s w)) ->
  host = MQTT_SERVER s /\ port = MQTT_PORT s
  /\ exists before after,
       run_events (start_mqtt H s w) =
         (before ++ Connect host port r :: after)%list
       /\ In (NewClient (MQTT_CLIENT_ID s) (inr tt)) before
       /\ In (SetCallback OnConnect) before
       /\ In (SetCallback OnMessage) before
       /\ In (SetCallback OnPublish) before
       /\ In (SetCallback OnSubscribe) before.
Proof.
  unfold_life. repeat split_host; intros Hin;
    repeat (destruct Hin as [Hin | Hin]; try discriminate Hin);
    try contradiction;
    injection Hin as <- <- <-;
    (split; [reflexivity |]); (split; [reflexivity |]);
    eexists [_; _; _; _; _; _; _]; eexists;
    (split; [reflexivity |]); cbn; intuition.
Qed.

(** X10: once the MQTT thread has been started, [start_router_app] stays
    in the publisher loop however long it is observed.  Nothing a publish
    cycle does reaches its handler, so it logs no error of its own, and
    the [time.sleep(36000)] after the loop is never run. *)
Theorem start_router_app_stays_in_publisher_loop (fuel : nat) (w w1 : W) :
  thread_start H w = (inr tt, w1) ->
  start_router_app H s fuel w =
    Run Running
      (out_world (publish_thread (core H) s fuel w1))
      (Core (LogDebug "start_router_app()")
       :: ThreadStart "start_mqtt" (inr tt)
       :: map Core (out_events (publish_thread (core H) s fuel w1))).
Proof.
  intros Hth. unfold_life. rewrite Hth. cbn.
  pose proof (publish_thread_returns (core H) s fuel w1) as Hret.
  destruct (publish_thread (core H) s fuel w1) as [[e | []] w2 evs];
    cbn in *; [discriminate Hret | reflexivity].
Qed.

(** X11: when the MQTT thread cannot be started, the exception is logged
    twice, by [start_router_app] and then by [action], and raised to the
    caller of [action]; the publisher loop is never entered. *)
Theorem action_logs_thread_failure_twice (fuel : nat) (w w1 : W) (ex : exn) :
  thread_start H w = (inl ex, w1) ->
  action H s "start" fuel w =
    Run (Raised ex) w1
      [Core (LogDebug "action(start)");
       Core (LogDebug "start_router_app()");
       ThreadStart "start_mqtt" (inl ex);
       Core (LogError ("Exception during start_router_app()! exception: "
                       ++ exn_str ex));
       Core (LogError ("Exception during start! exception: " ++ exn_str ex))].
Proof.
  intros Hth. unfold_life. rewrite Hth. reflexivity.
Qed.

(** X12: [action] with a command that is neither start nor stop logs the
    call and returns; it starts nothing and raises nothing. *)
Theorem action_ignores_unknown_command (command : string) (fuel : nat) (w : W) :
  command <> "start" -> command <> "stop" ->
  action H s command fuel w =
    Run (Returned tt) w [Core (LogDebug ("action(" ++ command ++ ")"))].
Proof.
  intros H1 H2. unfold_life.
  apply String.eqb_neq in H1, H2. rewrite H1, H2. reflexivity.
Qed.

(** X13: the main block is case sensitive and exact.  When
    [parse_args] returns a namespace whose [opt], once stripped, is
    neither start nor stop, the stripped value is logged as a failed
    command and the process exits; [action] is not called. *)
Theorem main_rejects_other_commands (opt : string) (fuel : nat) (w : W) :
  py_strip opt <> "start" -> py_strip opt <> "stop" ->
  main_block H s (Namespace opt) fuel w =
    Run Exited w
      [Core (LogDebug ("Failed to run command: " ++ py_strip opt))].
Proof.
  intros H1 H2. unfold main_block, main.
  apply String.eqb_neq in H1, H2. rewrite H1, H2.
  reflexivity.
Qed.

(** X14: white space around the parsed value does not matter: for a
    namespace whose [opt] is padded with white space the main block does
    the same as for the bare value. *)
Theorem main_ignores_padding (l opt r : string) (fuel : nat) (w : W) :
  all_space l = true -> all_space r = true ->
  main_block H s (Namespace (l ++ opt ++ r)) fuel w =
    main_block H s (Namespace opt) fuel w.
Proof.
  intros Hl Hr. unfold main_block, main.
  rewrite (py_strip_padding l opt r Hl Hr).
  reflexivity.
Qed.

(** X15: stop stops nothing.  With the command stop the main block only
    writes three log lines and returns; it makes no call on the client,
    the data source or a thread, and the world is as it was. *)
Theorem main_stop_only_logs (arg : string) (fuel : nat) (w : W) :
  py_strip arg = "stop" ->
  main H s arg fuel w =
    Run (Returned tt) w
      [Core (LogDebug "action(stop)");
       Core (LogDebug "stop_router_app()");
       Core (LogDebug "App is exiting")].
Proof.
  intros Hs. unfold main. rewrite Hs. reflexivity.
Qed.

(** X16: with the command start the main block never gets past
    [action]: it is either still in the publisher loop or has raised the
    exception of the failed thread start, and the line after the call,
    the log of the exit, is not reached. *)
Theorem main_start_never_returns (arg : string) (fuel : nat) (w : W) :
  py_strip arg = "start" ->
  main H s arg fuel w = action H s "start" fuel w
  /\ (run_status (main H s arg fuel w) = Running
      \/ exists ex w1,
           thread_start H w = (inl ex, w1)
           /\ run_status (main H s arg fuel w) = Raised ex).
Proof.
  intros Hs. unfold main. rewrite Hs. unfold_life.
  destruct (thread_start H w) as [[ex | []] w1]; cbn.
  - split; [reflexivity |]. right. eauto.
  - pose proof (publish_thread_returns (core H) s fuel w1) as Hret.
    destruct (publish_thread (core H) s fuel w1) as [[e | []] w2 evs];
      cbn in *; [discriminate Hret |].
    split; [reflexivity | left; reflexivity].
Qed.

End Life.

(** ** The further properties at sample worlds *)

Lemma cycle_aborts_when_gps_data_is_not_a_dict_witness :
  out_events (publish_iteration no_data sample_settings tt) =
    [CsGet "/status/gps/lastpos" (inr (PDict [("success", PBool false)]));
     LogError "Exception in send_gps(). ex: 'NoneType' object has no attribute 'get'"]
  /\ out_world (publish_iteration no_data sample_settings tt) = tt.
Proof.
  apply (cycle_aborts_when_gps_data_is_not_a_dict no_data sample_settings
           tt tt [("success", PBool false)] PNone);
    [reflexivity | reflexivity | discriminate].
Defined.

Lemma completed_cycle_trace_witness :
  exists r_gps gps_lastpos pos r_temp r_wan modem_temp wan_connection_state,
    py_get r_gps "data" PNone = inr gps_lastpos
    /\ gps_pos gps_lastpos = inr pos
    /\ py_get r_temp "data" (PStr EmptyString) = inr modem_temp
    /\ py_get r_wan "data" PNone = inr wan_connection_state
    /\ out_events (publish_iteration healthy sample_settings tt) =
         [CsGet "/status/gps/lastpos" (inr r_gps);
          PublishSingle "/status/gps/lastpos" (json_dumps pos) 0
            "test.mosquitto.org" 1883 (inr tt);
          CsGet "/status/system/modem_temperature" (inr r_temp);
          CsGet "/status/wan/connection_state" (inr r_wan);
          PublishMultiple
            [("/status/system/modem_temperature", modem_temp, 0, false);
             ("/status/wan/connection_state", wan_connection_state, 0, false)]
            "test.mosquitto.org" 1883 (inr tt);
          Sleep 10].
Proof.
  apply (completed_cycle_trace healthy sample_settings tt). reflexivity.
Defined.

Lemma batch_failure_keeps_gps_publish_witness :
  exists before payload,
    out_events (publish_iteration batch_fails sample_settings tt) =
      (before
       ++ [PublishMultiple healthy_msgs "test.mosquitto.org" 1883
             (inl broker_down);
           LogError "Exception in send_gps(). ex: [Errno 111] Connection refused"])%list
    /\ In (PublishSingle "/status/gps/lastpos" payload 0
             "test.mosquitto.org" 1883 (inr tt)) before
    /\ filter is_sleep (out_events (publish_iteration batch_fails sample_settings tt)) = []
    /\ out_res (publish_iteration batch_fails sample_settings tt) = inr tt.
Proof.
  apply (batch_failure_keeps_gps_publish batch_fails sample_settings tt
           healthy_msgs "test.mosquitto.org" 1883 broker_down).
  do 4 right. left. reflexivity.
Defined.

(** Two connects, the first subscribe raising: both subscribe. *)
Example reconnect_after_failed_subscribe :
  filter is_subscribe
    (out_events (on_connect_each subscribe_flaky sample_settings [0; 0] 0%nat)) =
    [Subscribe (subscribe_topics sample_settings) (inl invalid_topic);
     Subscribe (subscribe_topics sample_settings) (inr tt)].
Proof.
  reflexivity.
Qed.

Lemma start_mqtt_reraises_connect_failure_witness :
  Lifecycle.start_mqtt Lifecycle.broker_unreachable sample_settings tt =
    Lifecycle.Run (Lifecycle.Raised broker_down) tt
      [Lifecycle.Core (LogDebug "Start MQTT Client");
       Lifecycle.NewClient "mqtt_app" (inr tt);
       Lifecycle.SetCallback Lifecycle.OnConnect;
       Lifecycle.SetCallback Lifecycle.OnMessage;
       Lifecycle.SetCallback Lifecycle.OnPublish;
       Lifecycle.SetCallback Lifecycle.OnSubscribe;
       Lifecycle.Core (LogDebug "MQTT connect to test.mosquitto.org, 1883");
       Lifecycle.Connect "test.mosquitto.org" 1883 (inl broker_down);
       Lifecycle.Core
         (LogError "Exception in start_mqtt()! exception: [Errno 111] Connection refused")].
Proof.
  apply (start_mqtt_reraises_connect_failure Lifecycle.broker_unreachable
           sample_settings tt tt tt broker_down);
    reflexivity.
Defined.

Lemma start_mqtt_registers_callbacks_before_connect_witness :
  "test.mosquitto.org" = "test.mosquitto.org" /\ 1883 = 1883
  /\ exists before after,
       Lifecycle.run_events (Lifecycle.start_mqtt Lifecycle.up sample_settings tt) =
         (before ++ Lifecycle.Connect "test.mosquitto.org" 1883 (inr tt) :: after)%list
       /\ In (Lifecycle.NewClient "mqtt_app" (inr tt)) before
       /\ In (Lifecycle.SetCallback Lifecycle.OnConnect) before
       /\ In (Lifecycle.SetCallback Lifecycle.OnMessage) before
       /\ In (Lifecycle.SetCallback Lifecycle.OnPublish) before
       /\ In (Lifecycle.SetCallback Lifecycle.OnSubscribe) before.
Proof.
  apply (start_mqtt_registers_callbacks_before_connect Lifecycle.up
           sample_settings tt "test.mosquitto.org" 1883 (inr tt)).
  do 7 right. left. reflexivity.
Defined.

Lemma start_router_app_stays_in_publisher_loop_witness :
  Lifecycle.start_router_app Lifecycle.up sample_settings 3 tt =
    Lifecycle.Run Lifecycle.Running
      (out_world (publish_thread healthy sample_settings 3 tt))
      (Lifecycle.Core (LogDebug "start_router_app()")
       :: Lifecycle.ThreadStart "start_mqtt" (inr tt)
       :: map Lifecycle.Core
            (out_events (publish_thread healthy sample_settings 3 tt))).
Proof.
  apply (start_router_app_stays_in_publisher_loop Lifecycle.up
           sample_settings 3 tt tt).
  reflexivity.
Defined.

Lemma action_logs_thread_failure_twice_witness :
  Lifecycle.action Lifecycle.no_threads sample_settings "start" 3 tt =
    Lifecycle.Run (Lifecycle.Raised Lifecycle.cannot_start_thread) tt
      [Lifecycle.Core (LogDebug "action(start)");
       Lifecycle.Core (LogDebug "start_router_app()");
       Lifecycle.ThreadStart "start_mqtt" (inl Lifecycle.cannot_start_thread);
       Lifecycle.Core
         (LogError "Exception during start_router_app()! exception: can't start new thread");
       Lifecycle.Core
         (LogError "Exception during start! exception: can't start new thread")].
Proof.
  apply (action_logs_thread_failure_twice Lifecycle.no_threads
           sample_settings 3 tt tt Lifecycle.cannot_start_thread).
  reflexivity.
Defined.

Lemma action_ignores_unknown_command_witness :
  Lifecycle.action Lifecycle.up sample_settings "restart" 3 tt =
    Lifecycle.Run (Lifecycle.Returned tt) tt
      [Lifecycle.Core (LogDebug "action(restart)")].
Proof.
  apply (action_ignores_unknown_command Lifecycle.up sample_settings
           "restart" 3 tt);
    discriminate.
Defined.

Lemma main_rejects_other_commands_witness :
  Lifecycle.main_block Lifecycle.up sample_settings
    (Lifecycle.Namespace " START ") 3 tt =
    Lifecycle.Run Lifecycle.Exited tt
      [Lifecycle.Core (LogDebug "Failed to run command: START")].
Proof.
  apply (main_rejects_other_commands Lifecycle.up sample_settings
           " START " 3 tt);
    discriminate.
Defined.

Lemma main_ignores_padding_witness :
  Lifecycle.main_block Lifecycle.up sample_settings
    (Lifecycle.Namespace
       ("  " ++ "stop" ++ String (ascii_of_nat 10) EmptyString)) 3 tt =
  Lifecycle.main_block Lifecycle.up sample_settings
    (Lifecycle.Namespace "stop") 3 tt.
Proof.
  apply (main_ignores_padding Lifecycle.up sample_settings
           "  " "stop" (String (ascii_of_nat 10) EmptyString) 3 tt);
    reflexivity.
Defined.

Lemma main_stop_only_logs_witness :
  Lifecycle.main Lifecycle.up sample_settings " stop" 3 tt =
    Lifecycle.Run (Lifecycle.Returned tt) tt
      [Lifecycle.Core (LogDebug "action(stop)");
       Lifecycle.Core (LogDebug "stop_router_app()");
       Lifecycle.Core (LogDebug "App is exiting")].
Proof.
  apply (main_stop_only_logs Lifecycle.up sample_settings " stop" 3 tt).
  reflexivity.
Defined.

Lemma main_start_never_returns_witness :
  Lifecycle.main Lifecycle.up sample_settings "start" 3 tt =
    Lifecycle.action Lifecycle.up sample_settings "start" 3 tt
  /\ (Lifecycle.run_status (Lifecycle.main Lifecycle.up sample_settings "start" 3 tt)
      = Lifecycle.Running
      \/ exists ex w1,
           Lifecycle.thread_start Lifecycle.up tt = (inl ex, w1)
           /\ Lifecycle.run_status
                (Lifecycle.main Lifecycle.up sample_settings "start" 3 tt)
              = Lifecycle.Raised ex).
Proof.
  apply (main_start_never_returns Lifecycle.up sample_settings "start" 3 tt).
  reflexivity.
Defined.
